(** * loggingutil: context-layered log-record enrichment

    A shallow embedding of [loggingutil.py].  The module keeps three pieces
    of ambient state: the root logger's handler list, the process-wide dict
    [_LOGGER_FUNCTION_CONTEXT], and the [threading.local()] object
    [_LOGGER_REQUEST_CONTEXT].  Dicts and attribute namespaces are finite
    maps keyed by strings; the thread-local object is a finite map from
    thread identifiers to attribute namespaces; code that may raise runs in
    a small state-and-exception monad. *)

From Stdlib Require Import ZArith Ascii String.
From stdpp Require Import gmap strings list fin_maps.

Local Open Scope string_scope.

(** ** Python values *)

Module Py.

(** The values that flow through the module: [None], [str], [int], dict
    literals (kept in source order) and the backend's
    [Resource(type, labels)] named tuple. *)
#[warnings="-register-all"]
Inductive value : Type :=
  | VNone
  | VStr (s : string)
  | VInt (n : Z)
  | VDict (items : list (string * value))
  | VResource (type : value) (labels : value).

(** Truth-value testing, as [if x:] performs it. *)
Definition truthy (v : value) : bool :=
  match v with
  | VNone => false
  | VStr s => negb (String.eqb s "")
  | VInt n => negb (Z.eqb n 0)
  | VDict items => match items with [] => false | _ => true end
  | VResource _ _ => true
  end.

(** [x or y] *)
Definition or_ (x y : value) : value := if truthy x then x else y.

(** The result of a lookup that answers [None] when the key is missing
    ([os.environ.get(k)], [headers.get(k)]). *)
Definition of_lookup (o : option string) : value :=
  match o with
  | Some s => VStr s
  | None => VNone
  end.

(** [d.get(key, default)] on a dict. *)
Definition dict_get (d : gmap string value) (key : string) (dflt : value) : value :=
  default dflt (d !! key).

(** [s.split(sep)] for a one-character separator: every occurrence of the
    separator ends a segment, so the empty string splits into one empty
    segment. *)
Fixpoint split (sep : ascii) (s : string) : list string :=
  match s with
  | EmptyString => [""]
  | String c rest =>
      if Ascii.eqb c sep then "" :: split sep rest
      else match split sep rest with
           | [] => [String c ""]
           | seg :: segs => String c seg :: segs
           end
  end.

(** Exceptions the module can raise. *)
Inductive exn : Type :=
  | IndexError.

Inductive outcome (A : Type) : Type :=
  | Returned (a : A)
  | Raised (e : exn).
Arguments Returned {A} a.
Arguments Raised {A} e.

(** Computations over a store [S] that may raise; whatever was written
    before the exception stays written. *)
Definition M (S A : Type) : Type := S -> S * outcome A.

Definition ret {S A} (a : A) : M S A := fun st => (st, Returned a).

Definition bind {S A B} (m : M S A) (k : A -> M S B) : M S B :=
  fun st =>
    match m st with
    | (st', Returned a) => k a st'
    | (st', Raised e) => (st', Raised e)
    end.

Definition raise {S A} (e : exn) : M S A := fun st => (st, Raised e).

(** [l[i]] for a non-negative index. *)
Definition index {S A} (l : list A) (i : nat) : M S A :=
  match l !! i with
  | Some x => ret x
  | None => raise IndexError
  end.

End Py.

Import Py.

#[global] Instance M_ret {S} : MRet (M S) := fun A => @ret S A.
#[global] Instance M_bind {S} : MBind (M S) := fun A B k m => @bind S A B m k.

(** ** Ambient state *)

(** An attribute namespace (an object's [__dict__]) or a string-keyed dict. *)
Abbreviation attrs := (gmap string value).

Definition thread_id := nat.

(** A [threading.local()] object: one attribute namespace per OS thread. *)
Abbreviation thread_local := (gmap nat (gmap string value)).

(** [getattr(obj, name, default)] evaluated on thread [tid]. *)
Definition local_getattr (tid : thread_id) (name : string) (dflt : value)
    (obj : thread_local) : value :=
  default dflt (obj !! tid ≫= (.!! name)).

(** [obj.name = v] evaluated on thread [tid]. *)
Definition local_setattr (tid : thread_id) (name : string) (v : value)
    : M thread_local unit :=
  fun obj => (<[tid := <[name := v]> (default ∅ (obj !! tid))]> obj, Returned tt).

(** Request headers and the process environment.  Header lookup ignores
    letter case in the web framework; the map is keyed by the spelling the
    module asks for. *)
Abbreviation headers := (gmap string string).
Abbreviation environ := (gmap string string).

(** ** [LogFactory] (lines 11-20) *)

Definition NOTSET : Z := 0.
Definition DEBUG : Z := 10.
Definition INFO : Z := 20.
Definition WARNING : Z := 30.

Record logger : Type := { level : Z }.

(** The logging manager's table of logger objects; a logger object is
    referred to by the name it is registered under. *)
Abbreviation logger_dict := (gmap string logger).

(** The name a logger is registered under: the empty name stands for the
    root logger, which is registered as "root". *)
Definition logger_key (name : string) : string :=
  if String.eqb name "" then "root" else name.

(** [logging.getLogger(name)]: the registered logger, created on first use;
    the empty name gives the root logger. *)
Definition getLogger (name : string) : M logger_dict string :=
  fun loggers =>
    match loggers !! logger_key name with
    | Some _ => (loggers, Returned (logger_key name))
    | None =>
        (<[logger_key name := {| level := NOTSET |}]> loggers,
         Returned (logger_key name))
    end.

(** [logger.setLevel(lvl)] *)
Definition setLevel (ref : string) (lvl : Z) : M logger_dict unit :=
  fun loggers => (<[ref := {| level := lvl |}]> loggers, Returned tt).

(** The module's own [__name__]. *)
Definition __name__ : string := "loggingutil".

Definition LogFactory (name : string) (log_level : Z) (debug : bool)
    : M logger_dict string :=
  logger ← getLogger __name__;
  (if debug then setLevel logger DEBUG else setLevel logger log_level);;
  mret logger.

(** ** Start-up normalisation (lines 28-40) *)

(** Lines 29-32: the root logger goes to INFO, the backend's excluded
    loggers to WARNING. *)
Fixpoint pin_excluded (names : list string) : M logger_dict unit :=
  match names with
  | [] => mret tt
  | logger_name :: rest =>
      logger ← getLogger logger_name;
      setLevel logger WARNING;;
      pin_excluded rest
  end.

Definition pin_levels (EXCLUDED_LOGGER_DEFAULTS : list string) : M logger_dict unit :=
  root ← getLogger "root";
  setLevel root INFO;;
  pin_excluded EXCLUDED_LOGGER_DEFAULTS.

(** An output handler on the root logger.  [isinstance_StreamHandler] is
    the answer of [isinstance(h, logging.StreamHandler)];
    [installed_by_backend] records whether [setup_logging()] put the handler
    there (the code never inspects it). *)
Record handler : Type := {
  handler_name : string;
  isinstance_StreamHandler : bool;
  installed_by_backend : bool;
}.

(** [del l[i]] on the list object itself. *)
Definition del_item {A} (i : nat) : M (list A) unit :=
  fun l =>
    if decide (i < length l) then (delete i l, Returned tt)
    else (l, Raised IndexError).

(** Lines 36-40, run on the root logger's handler list.  [and] evaluates
    left to right, so the two subscripts are only reached when the list has
    more than two items. *)
Definition remove_duplicate_handlers : M (list handler) unit :=
  fun _root_handlers =>
    (if (2 <? length _root_handlers)%nat
        && from_option isinstance_StreamHandler false (_root_handlers !! 0)
        && from_option isinstance_StreamHandler false (_root_handlers !! 1)
     then
       del_item 0;;
       del_item 0
     else mret tt) _root_handlers.

(** ** The record factory (lines 48-74) *)

Section RecordFactory.

(** The arguments of a record construction and the factory that was
    installed before this module's. *)
Context {Args : Type}.
Variable _old_log_factory : Args -> attrs.

Definition _new_log_factory
    (_LOGGER_FUNCTION_CONTEXT : attrs) (_LOGGER_REQUEST_CONTEXT : thread_local)
    (tid : thread_id) (args : Args) : attrs :=
  let record := _old_log_factory args in
  let project_id := dict_get _LOGGER_FUNCTION_CONTEXT "project_id" VNone in
  let region := dict_get _LOGGER_FUNCTION_CONTEXT "function_region" VNone in
  let function_name := dict_get _LOGGER_FUNCTION_CONTEXT "function_name" VNone in
  let resource :=
    VResource (VStr "cloud_function")
      (VDict [("project_id", project_id); ("region", region);
              ("function_name", function_name)]) in
  let record := <["resource" := resource]> record in
  let trace := local_getattr tid "trace" VNone _LOGGER_REQUEST_CONTEXT in
  let record := if truthy trace then <["trace" := trace]> record else record in
  let span_id := local_getattr tid "span_id" VNone _LOGGER_REQUEST_CONTEXT in
  let record := if truthy span_id then <["span_id" := span_id]> record else record in
  let execution_id := local_getattr tid "execution_id" VNone _LOGGER_REQUEST_CONTEXT in
  let record :=
    if truthy execution_id then
      let labels :=
        dict_get _LOGGER_FUNCTION_CONTEXT "labels"
          (VDict [("execution_id", execution_id)]) in
      <["labels" := labels]> record
    else record in
  record.

End RecordFactory.


(** ** The request hook (lines 78-88) *)

Definition before_req (tid : thread_id) (hs : headers) : M thread_local unit :=
  let trace_header := hs !! "Traceparent" in
  (if truthy (of_lookup trace_header) then
     let trace := split "-" (default "" trace_header) in
     t1 ← index trace 1;
     local_setattr tid "trace" (VStr t1);;
     t2 ← index trace 2;
     local_setattr tid "span_id" (VStr t2)
   else mret tt);;
  let execution_id := of_lookup (hs !! "Function-Execution-Id") in
  local_setattr tid "execution_id" execution_id.

(** A request-handling flow: the OS thread it runs on and the headers of
    the request it serves.  Two flows scheduled cooperatively on one event
    loop have different [flow_id]s and the same [flow_thread]. *)
Record flow : Type := {
  flow_id : nat;
  flow_thread : thread_id;
  flow_headers : headers;
}.

(** The hook as the web framework runs it for a flow; a raised exception
    fails that request and leaves the store as it was at that point. *)
Definition run_hook (f : flow) (obj : thread_local) : thread_local :=
  fst (before_req (flow_thread f) (flow_headers f) obj).

(** Hooks run one after the other in the order the scheduler picks. *)
Definition run_hooks (schedule : list flow) (obj : thread_local) : thread_local :=
  foldl (fun st f => run_hook f st) obj schedule.

(** ** Static context initialisation (lines 92-97) *)

Definition environ_get (env : environ) (key : string) : value :=
  of_lookup (env !! key).

Definition init_function_context (env : environ) (_LOGGER_FUNCTION_CONTEXT : attrs)
    : attrs :=
  let _PROJECT_ID :=
    or_ (or_ (or_ (environ_get env "GCLOUD_PROJECT") (environ_get env "GCP_PROJECT"))
             (environ_get env "X_GOOGLE_GCLOUD_PROJECT"))
        (environ_get env "PROJECT_ID") in
  let _FUNCTION_NAME :=
    or_ (environ_get env "FUNCTION_NAME") (environ_get env "X_GOOGLE_FUNCTION_NAME") in
  let _FUNCTION_REGION :=
    or_ (environ_get env "FUNCTION_REGION") (environ_get env "X_GOOGLE_FUNCTION_REGION") in
  <["function_name" := _FUNCTION_NAME]>
    (<["function_region" := _FUNCTION_REGION]>
       (<["project_id" := _PROJECT_ID]> _LOGGER_FUNCTION_CONTEXT)).

(** ** Vocabulary of the specification *)

(** No dash occurs in the string. *)
Fixpoint dash_free (s : string) : bool :=
  match s with
  | EmptyString => true
  | String c rest => negb (Ascii.eqb c "-") && dash_free rest
  end.

(** A generic console handler: a stream handler that the platform, not the
    backend client, attached. *)
Definition generic_console (h : handler) : bool :=
  isinstance_StreamHandler h && negb (installed_by_backend h).

(** The handler layout the specification describes: two generic console
    handlers, then one or more handlers installed by the backend. *)
Definition spec_duplicate_pattern (hs : list handler) : bool :=
  match hs with
  | c1 :: c2 :: b :: rest =>
      generic_console c1 && generic_console c2
      && forallb installed_by_backend (b :: rest)
  | _ => false
  end.


(** The layout on which the code acts: a stream handler, another stream
    handler, and at least one more handler of any kind. *)
Definition stream_pair_then_more (hs : list handler) : bool :=
  match hs with
  | h0 :: h1 :: _ :: _ => isinstance_StreamHandler h0 && isinstance_StreamHandler h1
  | _ => false
  end.

(** The number of dashes in a string. *)
Fixpoint dashes (s : string) : nat :=
  match s with
  | EmptyString => 0
  | String c rest => (if Ascii.eqb c "-" then 1 else 0) + dashes rest
  end.

(** The attributes the request hook may write. *)
Definition hook_attrs : list string := ["trace"; "span_id"; "execution_id"].

(** The environment variables read for the project id, in source order. *)
Definition project_aliases : list string :=
  ["GCLOUD_PROJECT"; "GCP_PROJECT"; "X_GOOGLE_GCLOUD_PROJECT"; "PROJECT_ID"].

(** A variable that is unset or set to the empty string: [os.environ.get]
    yields a falsy value for it. *)
Definition unset_or_empty (env : environ) (name : string) : Prop :=
  env !! name = None \/ env !! name = Some "".

(** ** Sample inputs *)

(** The request of end-to-end scenario 2. *)
Definition traced_request : headers :=
  {[ "Traceparent" := "00-4bf92f3577b34da6a3ce929d0e0e4736-00f067aa0ba902b7-01" ]}.

(** A static context with an explicit label mapping, and the store after a
    request whose execution-id header is present with an empty value. *)
Definition labelled_context : attrs :=
  {[ "labels" := VDict [("team", VStr "payments")] ]}.

Definition empty_execution_id_request : headers :=
  {[ "Function-Execution-Id" := "" ]}.

(** The static context of end-to-end scenario 1. *)
Definition scenario1_environ : environ :=
  {[ "GCP_PROJECT" := "proj-1"; "FUNCTION_REGION" := "us-central1";
     "FUNCTION_NAME" := "fn-a" ]}.

(** A previous factory that yields a record with a message and a level. *)
Definition plain_factory (msg : string) : attrs :=
  {[ "msg" := VStr msg; "levelno" := VInt INFO ]}.

Definition empty_execution_id_store : thread_local :=
  (before_req 0 empty_execution_id_request ∅).1.

Definition execution_id_store : thread_local :=
  (before_req 0 {[ "Function-Execution-Id" := "abc123" ]} ∅).1.

(** The store after a request whose headers parse to empty strings. *)
Definition empty_fields_store : thread_local :=
  (before_req 0 {[ "Traceparent" := "00--"; "Function-Execution-Id" := "" ]} ∅).1.

Definition console (name : string) : handler :=
  {| handler_name := name; isinstance_StreamHandler := true;
     installed_by_backend := false |}.

Definition backend (name : string) : handler :=
  {| handler_name := name; isinstance_StreamHandler := true;
     installed_by_backend := true |}.

(** End-to-end scenario 3. *)
Definition scenario3_handlers : list handler :=
  [console "stderr"; console "stdout"; backend "cloud"].

(** Three platform console handlers ahead of the backend handler. *)
Definition three_console_handlers : list handler :=
  [console "stderr"; console "stdout"; console "tty"; backend "cloud"].

(** Two flows served on one event-loop thread. *)
Definition flow_A : flow :=
  {| flow_id := 1; flow_thread := 0;
     flow_headers := {[ "Traceparent" := "00-aaaa-bbbb-01";
                        "Function-Execution-Id" := "exec-a" ]} |}.

Definition flow_B : flow :=
  {| flow_id := 2; flow_thread := 0;
     flow_headers := {[ "Traceparent" := "00-cccc-dddd-01";
                        "Function-Execution-Id" := "exec-b" ]} |}.

(** A request with both headers, and an environment that sets an earlier
    project alias to the empty string. *)
Definition full_request : headers :=
  {[ "Traceparent" := "00-4bf92f3577b34da6a3ce929d0e0e4736-00f067aa0ba902b7-01";
     "Function-Execution-Id" := "abc123" ]}.

Definition aliased_environ : environ :=
  {[ "GCLOUD_PROJECT" := ""; "X_GOOGLE_GCLOUD_PROJECT" := "proj-2";
     "PROJECT_ID" := "proj-3" ]}.

(** Loggers the backend excludes, and a logger table with one application
    logger. *)
Definition sample_excluded : list string := ["google.cloud"; "urllib3"].

Definition sample_loggers : logger_dict := {[ "app" := {| level := DEBUG |} ]}.

(** Four stream handlers ahead of a backend handler. *)
Definition five_handlers : list handler :=
  [console "stderr"; console "stdout"; backend "cloud"; backend "structured";
   backend "audit"].


(** * Properties *)

(** ** Splitting on dashes *)

Section Split.

Lemma split_nonempty sep s : split sep s <> [].
Proof.
  destruct s as [|c rest]; simpl; [done|].
  destruct (Ascii.eqb c sep); [done|].
  destruct (split sep rest); done.
Qed.

Lemma dash_free_cons c s :
  dash_free (String c s) = true -> Ascii.eqb c "-" = false /\ dash_free s = true.
Proof.
  simpl. intros H. apply andb_true_iff in H as [Hc Hs].
  split; [by apply negb_true_iff|done].
Qed.

(** A dash-free prefix followed by a dash is the first segment. *)
Lemma split_dash_free_app a rest :
  dash_free a = true ->
  split "-" (a +:+ String "-" rest) = a :: split "-" rest.
Proof.
  induction a as [|c a IH]; intros Hfree.
  - reflexivity.
  - apply dash_free_cons in Hfree as [Hc Ha].
    change (String c a +:+ String "-" rest) with (String c (a +:+ String "-" rest)).
    cbn [split]. rewrite Hc, (IH Ha). reflexivity.
Qed.

(** A dash-free string is its own single segment. *)
Lemma split_dash_free a : dash_free a = true -> split "-" a = [a].
Proof.
  induction a as [|c a IH]; intros Hfree; [reflexivity|].
  apply dash_free_cons in Hfree as [Hc Ha].
  cbn [split]. rewrite Hc, (IH Ha). reflexivity.
Qed.

Lemma append_dash_nonempty a rest : String.eqb (a +:+ String "-" rest) "" = false.
Proof. destruct a; reflexivity. Qed.

End Split.

(** ** The thread-local object *)

Section ThreadLocal.

Implicit Types (obj : thread_local) (tid : thread_id) (name : string).

Lemma local_getattr_setattr_eq tid name v dflt obj :
  local_getattr tid name dflt (local_setattr tid name v obj).1 = v.
Proof.
  unfold local_getattr, local_setattr; simpl.
  rewrite lookup_insert_eq; simpl. by rewrite lookup_insert_eq.
Qed.

Lemma local_getattr_setattr_name_ne tid name name' v dflt obj :
  name <> name' ->
  local_getattr tid name' dflt (local_setattr tid name v obj).1
  = local_getattr tid name' dflt obj.
Proof.
  intros Hne. unfold local_getattr, local_setattr; simpl.
  rewrite lookup_insert_eq; simpl. rewrite lookup_insert_ne by done.
  destruct (obj !! tid); simpl; [done|]. by rewrite lookup_empty.
Qed.

Lemma local_setattr_other_thread tid tid' name v obj :
  tid <> tid' -> (local_setattr tid name v obj).1 !! tid' = obj !! tid'.
Proof. intros Hne. unfold local_setattr; simpl. by rewrite lookup_insert_ne. Qed.

(** What a write leaves in the writing thread's namespace depends on that
    namespace alone. *)
Lemma local_setattr_same_thread tid name v obj1 obj2 :
  obj1 !! tid = obj2 !! tid ->
  (local_setattr tid name v obj1).1 !! tid = (local_setattr tid name v obj2).1 !! tid.
Proof.
  intros Heq. unfold local_setattr; simpl.
  rewrite !lookup_insert_eq. by rewrite Heq.
Qed.

End ThreadLocal.

(** ** The request hook *)

Section Hook.

Implicit Types (obj : thread_local) (tid : thread_id) (hs : headers).

(** The hook on a request without a usable [Traceparent] header. *)
Lemma before_req_no_trace_header tid hs obj :
  truthy (of_lookup (hs !! "Traceparent")) = false ->
  before_req tid hs obj
  = local_setattr tid "execution_id" (of_lookup (hs !! "Function-Execution-Id")) obj.
Proof. intros Hfalsy. unfold before_req. rewrite Hfalsy. reflexivity. Qed.

(** The hook on a header with at least three segments. *)
Lemma before_req_segments tid hs obj h t1 t2 :
  hs !! "Traceparent" = Some h ->
  String.eqb h "" = false ->
  split "-" h !! 1 = Some t1 ->
  split "-" h !! 2 = Some t2 ->
  before_req tid hs obj
  = local_setattr tid "execution_id" (of_lookup (hs !! "Function-Execution-Id"))
      (local_setattr tid "span_id" (VStr t2)
         (local_setattr tid "trace" (VStr t1) obj).1).1.
Proof.
  intros Hh Hne H1 H2. unfold before_req. rewrite Hh. simpl.
  rewrite Hne. simpl.
  unfold mbind, M_bind, bind, index. rewrite H1, H2. reflexivity.
Qed.

(** The hook on a non-empty header without any dash. *)
Lemma before_req_one_segment tid hs obj h :
  hs !! "Traceparent" = Some h ->
  String.eqb h "" = false ->
  dash_free h = true ->
  before_req tid hs obj = (obj, Raised IndexError).
Proof.
  intros Hh Hne Hfree. unfold before_req. rewrite Hh. simpl.
  rewrite Hne. simpl. rewrite (split_dash_free _ Hfree). reflexivity.
Qed.

(** The hook on a header with exactly one dash: the trace id is written
    before the span subscript raises. *)
Lemma before_req_two_segments tid hs obj v t :
  hs !! "Traceparent" = Some (v +:+ String "-" t) ->
  dash_free v = true ->
  dash_free t = true ->
  before_req tid hs obj
  = ((local_setattr tid "trace" (VStr t) obj).1, Raised IndexError).
Proof.
  intros Hh Hv Ht. unfold before_req. rewrite Hh. simpl.
  rewrite append_dash_nonempty. simpl.
  rewrite (split_dash_free_app _ _ Hv), (split_dash_free _ Ht). reflexivity.
Qed.

End Hook.

(** C1 (the code departs from the claim).  A non-empty [Traceparent] header
    with fewer than three dash-separated segments makes the hook raise
    [IndexError]: the subscripts [trace[1]] and [trace[2]] are not guarded,
    so the request fails instead of degrading to an absent trace and span. *)
Theorem before_req_malformed_raises tid (hs : headers) (obj : thread_local) h :
  hs !! "Traceparent" = Some h ->
  String.eqb h "" = false ->
  length (split "-" h) < 3 ->
  (before_req tid hs obj).2 = Raised IndexError.
Proof.
  intros Hh Hne Hlen. unfold before_req. rewrite Hh. simpl. rewrite Hne. simpl.
  unfold mbind, M_bind, bind, index.
  destruct (split "-" h) as [|s0 [|s1 [|s2 segs]]]; simpl in *; try reflexivity.
  lia.
Qed.

Lemma before_req_malformed_raises_witness :
  (before_req 0 {[ "Traceparent" := "abc" ]} ∅).2 = Raised IndexError.
Proof.
  apply (before_req_malformed_raises 0 {[ "Traceparent" := "abc" ]} ∅ "abc").
  - reflexivity.
  - reflexivity.
  - simpl. lia.
Defined.

(** With one dash the trace id is already stored when the exception
    leaves the hook. *)
Example before_req_partial_write :
  let r := before_req 0 {[ "Traceparent" := "00-abc" ]} ∅ in
  r.2 = Raised IndexError /\ local_getattr 0 "trace" VNone r.1 = VStr "abc".
Proof. vm_compute. split; reflexivity. Qed.

(** An empty header value is skipped by the truthiness test. *)
Example before_req_empty_header :
  before_req 0 {[ "Traceparent" := "" ]} ∅
  = ({[ 0 := {[ "execution_id" := VNone ]} ]}, Returned tt).
Proof. vm_compute. reflexivity. Qed.

(** C2 (the code departs from the claim).  On a request without a
    [Traceparent] header the hook writes only [execution_id]; [trace] and
    [span_id] keep whatever an earlier request on the same thread stored. *)
Theorem before_req_keeps_stale_trace tid (hs : headers) (obj : thread_local) dflt :
  hs !! "Traceparent" = None ->
  let obj' := (before_req tid hs obj).1 in
  local_getattr tid "trace" dflt obj' = local_getattr tid "trace" dflt obj
  /\ local_getattr tid "span_id" dflt obj' = local_getattr tid "span_id" dflt obj
  /\ local_getattr tid "execution_id" dflt obj'
     = of_lookup (hs !! "Function-Execution-Id").
Proof.
  intros Hnone. rewrite before_req_no_trace_header by (by rewrite Hnone).
  cbv zeta. split; [|split].
  - by apply local_getattr_setattr_name_ne.
  - by apply local_getattr_setattr_name_ne.
  - apply local_getattr_setattr_eq.
Qed.

Lemma before_req_keeps_stale_trace_witness :
  let obj := (before_req 0 traced_request ∅).1 in
  let obj' := (before_req 0 ∅ obj).1 in
  local_getattr 0 "trace" VNone obj' = VStr "4bf92f3577b34da6a3ce929d0e0e4736"
  /\ local_getattr 0 "span_id" VNone obj' = VStr "00f067aa0ba902b7"
  /\ local_getattr 0 "execution_id" VNone obj' = VNone.
Proof.
  intros obj obj'.
  assert (Hnone : (∅ : headers) !! "Traceparent" = None) by reflexivity.
  pose proof (before_req_keeps_stale_trace 0 ∅ obj VNone Hnone) as H.
  exact H.
Defined.

(** C5.  A header [version-traceId-spanId-flags] whose first three segments
    contain no dash stores exactly [traceId] and [spanId], whatever the
    version and flags are, and the hook returns normally. *)
Theorem before_req_well_formed tid (hs : headers) (obj : thread_local) v t s f :
  dash_free v = true ->
  dash_free t = true ->
  dash_free s = true ->
  hs !! "Traceparent" = Some (v +:+ "-" +:+ t +:+ "-" +:+ s +:+ "-" +:+ f) ->
  exists obj',
    before_req tid hs obj = (obj', Returned tt)
    /\ local_getattr tid "trace" VNone obj' = VStr t
    /\ local_getattr tid "span_id" VNone obj' = VStr s.
Proof.
  intros Hv Ht Hs Hh.
  change (v +:+ "-" +:+ t +:+ "-" +:+ s +:+ "-" +:+ f)
    with (v +:+ String "-" (t +:+ String "-" (s +:+ String "-" f))) in Hh.
  assert (Hsplit : split "-" (v +:+ String "-" (t +:+ String "-" (s +:+ String "-" f)))
                   = v :: t :: s :: split "-" f).
  { by rewrite !split_dash_free_app. }
  rewrite (before_req_segments tid hs obj _ t s Hh).
  - set (e := of_lookup (hs !! "Function-Execution-Id")).
    set (obj1 := (local_setattr tid "trace" (VStr t) obj).1).
    set (obj2 := (local_setattr tid "span_id" (VStr s) obj1).1).
    exists (local_setattr tid "execution_id" e obj2).1.
    split; [reflexivity|]. subst obj2 obj1. split.
    + rewrite !local_getattr_setattr_name_ne by done.
      apply local_getattr_setattr_eq.
    + rewrite local_getattr_setattr_name_ne by done.
      apply local_getattr_setattr_eq.
  - apply append_dash_nonempty.
  - by rewrite Hsplit.
  - by rewrite Hsplit.
Qed.

Lemma before_req_well_formed_witness :
  exists obj',
    before_req 0 traced_request ∅ = (obj', Returned tt)
    /\ local_getattr 0 "trace" VNone obj' = VStr "4bf92f3577b34da6a3ce929d0e0e4736"
    /\ local_getattr 0 "span_id" VNone obj' = VStr "00f067aa0ba902b7".
Proof.
  apply (before_req_well_formed 0 traced_request ∅
           "00" "4bf92f3577b34da6a3ce929d0e0e4736" "00f067aa0ba902b7" "01");
    reflexivity.
Defined.

(** A header without the trailing flags still has three segments. *)
Example before_req_three_segments :
  let obj := (before_req 0 {[ "Traceparent" := "ff-abcd-1234" ]} ∅).1 in
  local_getattr 0 "trace" VNone obj = VStr "abcd"
  /\ local_getattr 0 "span_id" VNone obj = VStr "1234".
Proof. vm_compute. split; reflexivity. Qed.

(** ** The record factory *)

(** Case analysis on the three truthiness tests of the factory. *)
Ltac factory_cases :=
  unfold _new_log_factory; cbv zeta;
  repeat match goal with
         | |- context [if truthy ?v then _ else _] => destruct (truthy v) eqn:?
         end.

Section RecordFactoryProperties.

Context {Args : Type}.
Variable _old_log_factory : Args -> attrs.

Implicit Types (fctx : attrs) (rctx : thread_local) (tid : thread_id) (args : Args).

(** C4.  Every record the factory returns has a [resource] attribute of
    type "cloud_function" whose labels hold [project_id], [region] and
    [function_name] as read from the static context ([None] for a missing
    key), whatever the static and the request context contain. *)
Theorem resource_always_attached fctx rctx tid args :
  _new_log_factory _old_log_factory fctx rctx tid args !! "resource"
  = Some (VResource (VStr "cloud_function")
            (VDict [("project_id", dict_get fctx "project_id" VNone);
                    ("region", dict_get fctx "function_region" VNone);
                    ("function_name", dict_get fctx "function_name" VNone)])).
Proof. factory_cases; by simplify_map_eq. Qed.

(** C3 (as amended).  With an explicit [labels] entry in the static
    context and an execution id that passes the truthiness test, the
    record's [labels] attribute is that entry. *)
Theorem labels_precedence fctx rctx tid args m :
  fctx !! "labels" = Some m ->
  truthy (local_getattr tid "execution_id" VNone rctx) = true ->
  _new_log_factory _old_log_factory fctx rctx tid args !! "labels" = Some m.
Proof.
  intros Hm He. factory_cases; try congruence;
    unfold dict_get; rewrite Hm; by simplify_map_eq.
Qed.

(** X7.  Without a [labels] entry in the static context, an execution id
    that passes the truthiness test is attached as the single-key mapping
    [{execution_id: id}]. *)
Lemma labels_fallback fctx rctx tid args :
  fctx !! "labels" = None ->
  truthy (local_getattr tid "execution_id" VNone rctx) = true ->
  _new_log_factory _old_log_factory fctx rctx tid args !! "labels"
  = Some (VDict [("execution_id", local_getattr tid "execution_id" VNone rctx)]).
Proof.
  intros Hm He. factory_cases; try congruence;
    unfold dict_get; rewrite Hm; by simplify_map_eq.
Qed.


(** C9.  A request-context attribute that reads as the empty string does
    not pass the truthiness test: the matching record attribute ([trace],
    [span_id], or [labels] for [execution_id]) is left as the base record
    had it. *)
Theorem empty_string_not_attached fctx rctx tid args :
  (local_getattr tid "trace" VNone rctx = VStr "" ->
     _new_log_factory _old_log_factory fctx rctx tid args !! "trace"
     = _old_log_factory args !! "trace")
  /\ (local_getattr tid "span_id" VNone rctx = VStr "" ->
        _new_log_factory _old_log_factory fctx rctx tid args !! "span_id"
        = _old_log_factory args !! "span_id")
  /\ (local_getattr tid "execution_id" VNone rctx = VStr "" ->
        _new_log_factory _old_log_factory fctx rctx tid args !! "labels"
        = _old_log_factory args !! "labels").
Proof.
  split; [|split]; intros Hempty; unfold _new_log_factory; cbv zeta;
    rewrite Hempty; cbn [truthy String.eqb negb];
    repeat match goal with
           | |- context [if truthy ?v then _ else _] => destruct (truthy v)
           end;
    by simplify_map_eq.
Qed.

End RecordFactoryProperties.

(** C3 (as stated) fails when the execution id is present but empty: the
    truthiness test skips the [labels] attribute altogether. *)
Lemma labels_precedence_empty_execution_id :
  labelled_context !! "labels" = Some (VDict [("team", VStr "payments")])
  /\ empty_execution_id_store !! 0 ≫= (.!! "execution_id") = Some (VStr "")
  /\ _new_log_factory plain_factory labelled_context empty_execution_id_store 0 "hello"
       !! "labels" = None.
Proof. vm_compute. repeat split. Qed.

Lemma labels_precedence_witness :
  _new_log_factory plain_factory labelled_context execution_id_store 0 "hello" !! "labels"
  = Some (VDict [("team", VStr "payments")]).
Proof.
  apply (labels_precedence plain_factory labelled_context execution_id_store 0 "hello").
  - reflexivity.
  - vm_compute. reflexivity.
Defined.



Lemma empty_string_not_attached_witness :
  _new_log_factory plain_factory labelled_context empty_fields_store 0 "hello" !! "trace"
  = plain_factory "hello" !! "trace"
  /\ _new_log_factory plain_factory labelled_context empty_fields_store 0 "hello" !! "span_id"
     = plain_factory "hello" !! "span_id"
  /\ _new_log_factory plain_factory labelled_context empty_fields_store 0 "hello" !! "labels"
     = plain_factory "hello" !! "labels".
Proof.
  destruct (empty_string_not_attached plain_factory labelled_context
              empty_fields_store 0 "hello") as (Ht & Hs & He).
  split; [|split].
  - apply Ht. vm_compute. reflexivity.
  - apply Hs. vm_compute. reflexivity.
  - apply He. vm_compute. reflexivity.
Defined.

(** End-to-end scenario 1: a populated static context and no request
    context give a record with the resource and nothing else added. *)
Example factory_scenario1 :
  let fctx := init_function_context scenario1_environ ∅ in
  let record := _new_log_factory plain_factory fctx ∅ 0 "hello" in
  record !! "resource"
  = Some (VResource (VStr "cloud_function")
            (VDict [("project_id", VStr "proj-1"); ("region", VStr "us-central1");
                    ("function_name", VStr "fn-a")]))
  /\ record !! "trace" = None /\ record !! "span_id" = None
  /\ record !! "labels" = None.
Proof. vm_compute. repeat split. Qed.

(** With an empty environment every label is [None] and the descriptor is
    still attached. *)
Example factory_null_static_context :
  let fctx := init_function_context ∅ ∅ in
  _new_log_factory plain_factory fctx ∅ 0 "hello" !! "resource"
  = Some (VResource (VStr "cloud_function")
            (VDict [("project_id", VNone); ("region", VNone);
                    ("function_name", VNone)])).
Proof. vm_compute. reflexivity. Qed.

(** ** Duplicate handler removal *)

Section Handlers.

Implicit Types (hs : list handler) (h : handler).

Lemma remove_duplicate_handlers_removes h0 h1 h2 rest :
  isinstance_StreamHandler h0 = true ->
  isinstance_StreamHandler h1 = true ->
  remove_duplicate_handlers (h0 :: h1 :: h2 :: rest) = (h2 :: rest, Returned tt).
Proof.
  intros H0 H1. unfold remove_duplicate_handlers. simpl. rewrite H0, H1.
  reflexivity.
Qed.

Lemma remove_duplicate_handlers_short hs :
  length hs <= 2 -> remove_duplicate_handlers hs = (hs, Returned tt).
Proof.
  intros Hlen. unfold remove_duplicate_handlers.
  destruct (Nat.ltb_spec 2 (length hs)); [lia|reflexivity].
Qed.

Lemma spec_pattern_inv hs :
  spec_duplicate_pattern hs = true ->
  exists c1 c2 b rest,
    hs = c1 :: c2 :: b :: rest
    /\ generic_console c1 = true /\ generic_console c2 = true
    /\ forallb installed_by_backend (b :: rest) = true.
Proof.
  destruct hs as [|c1 [|c2 [|b rest]]]; try discriminate.
  unfold spec_duplicate_pattern. intros H.
  apply andb_true_iff in H as [H Hb]. apply andb_true_iff in H as [H1 H2].
  by exists c1, c2, b, rest.
Qed.

(** C6 (as amended).  The first two handlers are removed exactly when the
    list holds more than two handlers and its first two are stream
    handlers, whatever follows them; the handlers after them stay, in
    order.  In every other case the list is left as it is.  On the layout
    the specification names (two generic console handlers, then backend
    handlers only) this removes the two console handlers and leaves only
    backend-installed ones. *)
Theorem remove_duplicate_handlers_layout hs :
  remove_duplicate_handlers hs
  = (if stream_pair_then_more hs then drop 2 hs else hs, Returned tt)
  /\ (spec_duplicate_pattern hs = true ->
      stream_pair_then_more hs = true
      /\ drop 2 hs <> []
      /\ Forall (fun h => installed_by_backend h = true) (drop 2 hs)).
Proof.
  split.
  - destruct hs as [|h0 [|h1 [|h2 rest]]]; try reflexivity.
    unfold remove_duplicate_handlers, stream_pair_then_more. simpl.
    destruct (isinstance_StreamHandler h0), (isinstance_StreamHandler h1);
      reflexivity.
  - intros Hspec.
    apply spec_pattern_inv in Hspec as (c1 & c2 & b & rest & -> & Hc1 & Hc2 & Hb).
    unfold generic_console in Hc1, Hc2.
    apply andb_true_iff in Hc1 as [Hc1 _]. apply andb_true_iff in Hc2 as [Hc2 _].
    split; [|split].
    + simpl. by rewrite Hc1, Hc2.
    + done.
    + simpl. apply Forall_forall. intros h Hin.
      rewrite forallb_forall in Hb. apply Hb. by apply list_elem_of_In.
Qed.

End Handlers.

Lemma remove_duplicate_handlers_layout_witness :
  stream_pair_then_more scenario3_handlers = true
  /\ drop 2 scenario3_handlers <> []
  /\ Forall (fun h => installed_by_backend h = true) (drop 2 scenario3_handlers).
Proof.
  apply (remove_duplicate_handlers_layout scenario3_handlers). reflexivity.
Defined.

(** C6 (as stated) fails when the platform attached three console
    handlers ahead of the backend handler.  The list is not the named layout
    (the handler after the first two is not a backend handler), yet the
    first two handlers are removed; and what is left is not only
    backend-installed handlers, since the third console handler stays. *)
Lemma remove_duplicate_handlers_third_console :
  spec_duplicate_pattern three_console_handlers = false
  /\ remove_duplicate_handlers three_console_handlers
     = ([console "tty"; backend "cloud"], Returned tt)
  /\ length (remove_duplicate_handlers three_console_handlers).1
     <> length three_console_handlers
  /\ forallb installed_by_backend (remove_duplicate_handlers three_console_handlers).1
     = false.
Proof. vm_compute. repeat split. discriminate. Qed.

Example remove_duplicate_handlers_scenario3 :
  remove_duplicate_handlers scenario3_handlers = ([backend "cloud"], Returned tt).
Proof. reflexivity. Qed.

(** End-to-end scenario 4. *)
Example remove_duplicate_handlers_scenario4 :
  remove_duplicate_handlers [backend "cloud"] = ([backend "cloud"], Returned tt).
Proof. reflexivity. Qed.

(** ** Isolation of request contexts *)

Section Isolation.

Implicit Types (obj : thread_local) (tid t : thread_id) (hs : headers).

Lemma before_req_other_thread tid t hs obj :
  tid <> t -> (before_req tid hs obj).1 !! t = obj !! t.
Proof.
  intros Hne. unfold before_req.
  destruct (truthy (of_lookup (hs !! "Traceparent"))).
  - unfold mbind, M_bind, bind, index.
    destruct (split "-" (default "" (hs !! "Traceparent")) !! 1); simpl;
      [|done].
    destruct (split "-" (default "" (hs !! "Traceparent")) !! 2); simpl;
      by rewrite ?lookup_insert_ne.
  - unfold mbind, M_bind, bind. simpl. by rewrite lookup_insert_ne.
Qed.

Lemma before_req_same_thread tid hs obj1 obj2 :
  obj1 !! tid = obj2 !! tid ->
  (before_req tid hs obj1).1 !! tid = (before_req tid hs obj2).1 !! tid.
Proof.
  intros Heq. unfold before_req.
  destruct (truthy (of_lookup (hs !! "Traceparent"))).
  - unfold mbind, M_bind, bind, index.
    destruct (split "-" (default "" (hs !! "Traceparent")) !! 1); simpl;
      [|done].
    destruct (split "-" (default "" (hs !! "Traceparent")) !! 2); simpl;
      rewrite ?lookup_insert_eq; by rewrite Heq.
  - unfold mbind, M_bind, bind. simpl. rewrite !lookup_insert_eq. by rewrite Heq.
Qed.

(** The namespace of thread [t] after any schedule of hooks is the one
    obtained by running only the hooks of flows on [t]. *)
Lemma run_hooks_projection schedule t obj1 obj2 :
  obj1 !! t = obj2 !! t ->
  run_hooks schedule obj1 !! t
  = run_hooks (filter (fun f => flow_thread f = t) schedule) obj2 !! t.
Proof.
  revert obj1 obj2. induction schedule as [|f schedule IH]; intros obj1 obj2 Heq.
  - done.
  - rewrite filter_cons. simpl. destruct (decide (flow_thread f = t)) as [<-|Hne].
    + simpl. apply IH. unfold run_hook. by apply before_req_same_thread.
    + apply IH. unfold run_hook. by rewrite before_req_other_thread.
Qed.

Lemma factory_reads_own_thread {Args} (old : Args -> attrs) (fctx : attrs)
    obj1 obj2 t args :
  obj1 !! t = obj2 !! t ->
  _new_log_factory old fctx obj1 t args = _new_log_factory old fctx obj2 t args.
Proof.
  intros Heq. unfold _new_log_factory, local_getattr. by rewrite Heq.
Qed.

(** C8 (as amended).  Isolation is per OS thread.  After any interleaving
    of request hooks, what a flow on thread [t] reads from the request
    context, and the record the factory builds on [t], are those obtained
    when only the hooks of flows on [t] have run: nothing a flow on
    another thread stored is ever observed. *)
Theorem thread_isolation {Args} (old : Args -> attrs) (fctx : attrs)
    schedule obj t :
  let own := filter (fun f => flow_thread f = t) schedule in
  (forall name dflt,
     local_getattr t name dflt (run_hooks schedule obj)
     = local_getattr t name dflt (run_hooks own obj))
  /\ (forall args,
        _new_log_factory old fctx (run_hooks schedule obj) t args
        = _new_log_factory old fctx (run_hooks own obj) t args).
Proof.
  intros own.
  assert (Hproj : run_hooks schedule obj !! t = run_hooks own obj !! t)
    by (by apply run_hooks_projection).
  split.
  - intros name dflt. unfold local_getattr. by rewrite Hproj.
  - intros args. by apply factory_reads_own_thread.
Qed.

End Isolation.

(** C8 (as stated) fails for flows that share an OS thread: once the hook
    of flow B has run, flow A reads the ids of flow B. *)
Lemma cooperative_flows_share_context :
  flow_id flow_A <> flow_id flow_B
  /\ local_getattr (flow_thread flow_A) "trace" VNone (run_hooks [flow_A; flow_B] ∅)
     = VStr "cccc"
  /\ local_getattr (flow_thread flow_A) "span_id" VNone (run_hooks [flow_A; flow_B] ∅)
     = VStr "dddd"
  /\ local_getattr (flow_thread flow_A) "execution_id" VNone
       (run_hooks [flow_A; flow_B] ∅)
     = VStr "exec-b".
Proof. vm_compute. repeat split. discriminate. Qed.

(** ** [LogFactory] *)

(** C10.  [LogFactory] does not look at its [name] argument: it returns the
    logger registered under the module's own name, with level DEBUG when
    [debug] holds and [log_level] otherwise. *)
Theorem LogFactory_ignores_name n1 n2 log_level debug (loggers : logger_dict) :
  LogFactory n1 log_level debug loggers = LogFactory n2 log_level debug loggers
  /\ (LogFactory n1 log_level debug loggers).2 = Returned __name__
  /\ level <$> (LogFactory n1 log_level debug loggers).1 !! __name__
     = Some (if debug then DEBUG else log_level).
Proof.
  split; [reflexivity|].
  unfold LogFactory, mbind, M_bind, bind, getLogger.
  change (logger_key __name__) with __name__.
  destruct (loggers !! __name__), debug; simpl; by rewrite lookup_insert_eq.
Qed.

(** Two calls in a row hand back the same logger; the second level wins. *)
Example LogFactory_twice :
  let r1 := LogFactory "a" INFO false ∅ in
  let r2 := LogFactory "b" WARNING true r1.1 in
  r1.2 = r2.2 /\ level <$> r2.1 !! __name__ = Some DEBUG /\ size r2.1 = 1.
Proof. vm_compute. repeat split. Qed.

(** * Further properties *)

(** ** The request hook, case by case *)

Section HookCases.

Implicit Types (obj : thread_local) (tid : thread_id) (hs : headers).

Lemma length_split_dashes s : length (split "-" s) = S (dashes s).
Proof.
  induction s as [|c s IH]; [reflexivity|].
  cbn [split dashes]. destruct (Ascii.eqb c "-").
  - simpl. by rewrite IH.
  - pose proof (split_nonempty "-" s) as Hne.
    destruct (split "-" s) as [|seg segs]; [done|]. simpl in *. lia.
Qed.

(** The first segment is dash-free and the other segments are those of the
    text after the first dash. *)
Lemma split_cons_inv s a b l :
  split "-" s = a :: b :: l ->
  dash_free a = true
  /\ exists rest, s = a +:+ String "-" rest /\ split "-" rest = b :: l.
Proof.
  revert a. induction s as [|c s IH]; intros a Hsplit; [discriminate|].
  cbn [split] in Hsplit. destruct (Ascii.eqb c "-") eqn:Hc.
  - apply Ascii.eqb_eq in Hc as ->. injection Hsplit as <- Hrest.
    split; [reflexivity|]. by exists s.
  - destruct (split "-" s) as [|seg segs] eqn:Hs; [discriminate|].
    injection Hsplit as <- ->.
    destruct (IH seg eq_refl) as (Hfree & rest & -> & Hrest).
    split; [simpl; by rewrite Hc|]. by exists rest.
Qed.

Lemma split_singleton_inv s a : split "-" s = [a] -> s = a /\ dash_free a = true.
Proof.
  revert a. induction s as [|c s IH]; intros a Hsplit.
  - injection Hsplit as <-. done.
  - cbn [split] in Hsplit. destruct (Ascii.eqb c "-") eqn:Hc.
    + injection Hsplit as _ Hrest. by destruct (split_nonempty "-" s).
    + pose proof (split_nonempty "-" s) as Hne.
      destruct (split "-" s) as [|seg segs] eqn:Hs; [done|].
      injection Hsplit as <- ->. destruct (IH seg eq_refl) as [-> Hfree].
      split; [done|]. simpl. by rewrite Hc.
Qed.

(** The four ways through the hook; which one is taken depends on the
    headers alone. *)
Lemma before_req_cases tid hs :
  let e := of_lookup (hs !! "Function-Execution-Id") in
  (truthy (of_lookup (hs !! "Traceparent")) = false
   /\ forall obj, before_req tid hs obj = local_setattr tid "execution_id" e obj)
  \/ exists h, hs !! "Traceparent" = Some h /\ String.eqb h "" = false
      /\ ((exists t1 t2,
             split "-" h !! 1 = Some t1 /\ split "-" h !! 2 = Some t2
             /\ forall obj,
                  before_req tid hs obj
                  = local_setattr tid "execution_id" e
                      (local_setattr tid "span_id" (VStr t2)
                         (local_setattr tid "trace" (VStr t1) obj).1).1)
          \/ (split "-" h !! 1 = None
              /\ forall obj, before_req tid hs obj = (obj, Raised IndexError))
          \/ (exists t1,
                split "-" h !! 1 = Some t1 /\ split "-" h !! 2 = None
                /\ forall obj,
                     before_req tid hs obj
                     = ((local_setattr tid "trace" (VStr t1) obj).1, Raised IndexError))).
Proof.
  intros e. destruct (truthy (of_lookup (hs !! "Traceparent"))) eqn:Htruthy.
  - right. destruct (hs !! "Traceparent") as [h|] eqn:Hh; [|discriminate].
    simpl in Htruthy. apply negb_true_iff in Htruthy.
    exists h. split; [done|]. split; [done|].
    destruct (split "-" h !! 1) as [t1|] eqn:H1.
    + destruct (split "-" h !! 2) as [t2|] eqn:H2.
      * left. exists t1, t2. split; [done|]. split; [done|].
        intros obj. by apply before_req_segments with h.
      * right; right. exists t1. split; [done|]. split; [done|].
        intros obj. unfold before_req. rewrite Hh. simpl. rewrite Htruthy. simpl.
        unfold mbind, M_bind, bind, index. rewrite H1. simpl. by rewrite H2.
    + right; left. split; [done|].
      intros obj. unfold before_req. rewrite Hh. simpl. rewrite Htruthy. simpl.
      unfold mbind, M_bind, bind, index. by rewrite H1.
  - left. split; [done|]. intros obj. by apply before_req_no_trace_header.
Qed.

Lemma local_getattr_setattr_ne tid t name name' v dflt obj :
  name <> name' ->
  local_getattr t name' dflt (local_setattr tid name v obj).1
  = local_getattr t name' dflt obj.
Proof.
  intros Hne. destruct (decide (tid = t)) as [<-|Hthread].
  - by apply local_getattr_setattr_name_ne.
  - unfold local_getattr. by rewrite local_setattr_other_thread.
Qed.

(** A write into a namespace that was just stored for the thread. *)
Lemma local_setattr_insert tid name v (ns : attrs) obj :
  local_setattr tid name v (<[tid := ns]> obj)
  = (<[tid := <[name := v]> ns]> obj, Returned tt).
Proof.
  unfold local_setattr. rewrite lookup_insert_eq. simpl.
  by rewrite insert_insert_eq.
Qed.

Lemma local_setattr_fst tid name v obj :
  (local_setattr tid name v obj).1
  = <[tid := <[name := v]> (default ∅ (obj !! tid))]> obj.
Proof. reflexivity. Qed.

Lemma local_setattr_pair tid name v obj :
  local_setattr tid name v obj
  = (<[tid := <[name := v]> (default ∅ (obj !! tid))]> obj, Returned tt).
Proof. reflexivity. Qed.

Lemma local_setattr_insert_fst tid name v (ns : attrs) obj :
  (local_setattr tid name v (<[tid := ns]> obj)).1 = <[tid := <[name := v]> ns]> obj.
Proof. by rewrite local_setattr_insert. Qed.

Lemma store_insert_ext tid (ns1 ns2 : attrs) obj :
  (forall k, ns1 !! k = ns2 !! k) -> <[tid := ns1]> obj = <[tid := ns2]> obj.
Proof. intros Hext. f_equal. by apply map_eq. Qed.

(** X1.  The hook raises (always [IndexError]) exactly when the
    [Traceparent] header is present, non-empty and holds fewer than two
    dashes; on every other request it returns normally. *)
Theorem before_req_raises_iff tid hs obj :
  (before_req tid hs obj).2 = Raised IndexError
  <-> exists h, hs !! "Traceparent" = Some h /\ h <> "" /\ dashes h < 2.
Proof.
  destruct (before_req_cases tid hs)
    as [[Hfalsy Hrun]|(h & Hh & Hne & [(t1 & t2 & H1 & H2 & Hrun)|[[H1 Hrun]|(t1 & H1 & H2 & Hrun)]])];
    rewrite Hrun; simpl.
  - split; [discriminate|]. intros (h & Hh & Hne & _).
    rewrite Hh in Hfalsy. simpl in Hfalsy. apply negb_false_iff in Hfalsy.
    by apply String.eqb_eq in Hfalsy.
  - split; [discriminate|]. intros (h' & Hh' & _ & Hdash).
    assert (h' = h) as -> by congruence.
    apply lookup_lt_Some in H2. rewrite length_split_dashes in H2. lia.
  - split; [intros _|done]. exists h. split; [done|]. split.
    + by apply String.eqb_neq.
    + apply lookup_ge_None in H1. rewrite length_split_dashes in H1. lia.
  - split; [intros _|done]. exists h. split; [done|]. split.
    + by apply String.eqb_neq.
    + apply lookup_ge_None in H2. rewrite length_split_dashes in H2. lia.
Qed.

(** X2.  Whatever the hook stores came from the header's second and third
    positions: when it returns normally on a non-empty header, the header
    reads [v-t-s] or [v-t-s-...] with [v], [t] and [s] free of dashes, and
    [t] and [s] are the stored trace and span ids. *)
Theorem before_req_stored_from_header tid hs obj h :
  hs !! "Traceparent" = Some h ->
  h <> "" ->
  (before_req tid hs obj).2 = Returned tt ->
  exists v t s tail,
    h = v +:+ "-" +:+ t +:+ "-" +:+ s +:+ tail
    /\ dash_free v = true /\ dash_free t = true /\ dash_free s = true
    /\ (tail = "" \/ exists f, tail = String "-" f)
    /\ local_getattr tid "trace" VNone (before_req tid hs obj).1 = VStr t
    /\ local_getattr tid "span_id" VNone (before_req tid hs obj).1 = VStr s.
Proof.
  intros Hh Hne Hret.
  destruct (before_req_cases tid hs)
    as [[Hfalsy Hrun]|(h' & Hh' & _ & [(t1 & t2 & H1 & H2 & Hrun)|[[H1 Hrun]|(t1 & H1 & H2 & Hrun)]])];
    rewrite Hrun in Hret |- *; simpl in Hret; try discriminate.
  - rewrite Hh in Hfalsy. simpl in Hfalsy. apply negb_false_iff in Hfalsy.
    by apply String.eqb_eq in Hfalsy.
  - assert (h' = h) as -> by congruence.
    destruct (split "-" h) as [|a [|b [|c l]]] eqn:Hsplit; try discriminate.
    simpl in H1, H2. injection H1 as ->. injection H2 as ->.
    apply split_cons_inv in Hsplit as (Hv & rest1 & -> & Hsplit).
    apply split_cons_inv in Hsplit as (Ht & rest2 & -> & Hsplit).
    assert (Htail : exists tail, rest2 = t2 +:+ tail /\ dash_free t2 = true
                      /\ (tail = "" \/ exists f, tail = String "-" f)).
    { destruct l as [|d l].
      - apply split_singleton_inv in Hsplit as [-> Hs]. exists "".
        split; [|split; [done|by left]].
        clear. induction t2 as [|c t2 IH]; [done|].
        change (String c t2 = String c (t2 +:+ "")). by f_equal.
      - apply split_cons_inv in Hsplit as (Hs & rest3 & -> & _).
        exists (String "-" rest3). split; [done|]. split; [done|]. right.
        by exists rest3. }
    destruct Htail as (tail & -> & Hs & Htail).
    exists a, t1, t2, tail. split; [reflexivity|]. repeat (split; [done|]).
    split.
    + rewrite !local_getattr_setattr_name_ne by done.
      apply local_getattr_setattr_eq.
    + rewrite local_getattr_setattr_name_ne by done.
      apply local_getattr_setattr_eq.
Qed.

(** X3.  The hook writes no attribute other than [trace], [span_id] and
    [execution_id]: any other attribute of the thread-local object reads
    the same before and after, on every thread, whether or not the hook
    raises. *)
Theorem before_req_frame tid t hs obj name dflt :
  name ∉ hook_attrs ->
  local_getattr t name dflt (before_req tid hs obj).1 = local_getattr t name dflt obj.
Proof.
  unfold hook_attrs. rewrite !not_elem_of_cons. intros (Ht & Hs & He & _).
  destruct (before_req_cases tid hs)
    as [[_ Hrun]|(h & _ & _ & [(t1 & t2 & _ & _ & Hrun)|[[_ Hrun]|(t1 & _ & _ & Hrun)]])];
    rewrite Hrun; cbn [fst];
    rewrite ?local_getattr_setattr_ne by (by apply not_eq_sym); reflexivity.
Qed.

(** X4.  When the hook returns normally the execution id is the value of
    the [Function-Execution-Id] header, or [None] without that header;
    when the hook raises, the execution id of the previous request on the
    thread stays. *)
Theorem before_req_execution_id tid hs obj dflt :
  ((before_req tid hs obj).2 = Returned tt ->
     local_getattr tid "execution_id" dflt (before_req tid hs obj).1
     = of_lookup (hs !! "Function-Execution-Id"))
  /\ ((before_req tid hs obj).2 = Raised IndexError ->
        local_getattr tid "execution_id" dflt (before_req tid hs obj).1
        = local_getattr tid "execution_id" dflt obj).
Proof.
  destruct (before_req_cases tid hs)
    as [[_ Hrun]|(h & _ & _ & [(t1 & t2 & _ & _ & Hrun)|[[_ Hrun]|(t1 & _ & _ & Hrun)]])];
    rewrite Hrun; cbn [fst snd]; (split; intros Hout; try discriminate).
  - apply local_getattr_setattr_eq.
  - apply local_getattr_setattr_eq.
  - done.
  - by apply local_getattr_setattr_name_ne.
Qed.

(** X5.  The hook is idempotent: running it again with the same headers
    gives the same store and the same outcome as running it once. *)
Theorem before_req_idempotent tid hs obj :
  before_req tid hs (before_req tid hs obj).1 = before_req tid hs obj.
Proof.
  destruct (before_req_cases tid hs)
    as [[_ Hrun]|(h & _ & _ & [(t1 & t2 & _ & _ & Hrun)|[[_ Hrun]|(t1 & _ & _ & Hrun)]])];
    rewrite !Hrun; try reflexivity; cbn [fst];
    rewrite ?(local_setattr_fst tid _ _ obj), ?local_setattr_insert_fst,
      ?local_setattr_insert, ?(local_setattr_pair tid _ _ obj);
    f_equal; apply store_insert_ext; intros k;
    rewrite !lookup_insert; repeat destruct (decide _); congruence.
Qed.

End HookCases.

Lemma before_req_stored_from_header_witness :
  exists v t s tail,
    "00-4bf92f3577b34da6a3ce929d0e0e4736-00f067aa0ba902b7-01"
    = v +:+ "-" +:+ t +:+ "-" +:+ s +:+ tail
    /\ dash_free v = true /\ dash_free t = true /\ dash_free s = true
    /\ (tail = "" \/ exists f, tail = String "-" f)
    /\ local_getattr 0 "trace" VNone (before_req 0 traced_request ∅).1 = VStr t
    /\ local_getattr 0 "span_id" VNone (before_req 0 traced_request ∅).1 = VStr s.
Proof.
  apply (before_req_stored_from_header 0 traced_request ∅).
  - reflexivity.
  - discriminate.
  - vm_compute. reflexivity.
Defined.

Lemma before_req_frame_witness :
  local_getattr 0 "user" VNone
    (before_req 0 full_request {[ 0 := {[ "user" := VStr "alice" ]} ]}).1
  = local_getattr 0 "user" VNone {[ 0 := {[ "user" := VStr "alice" ]} ]}.
Proof.
  apply (before_req_frame 0 0 full_request). unfold hook_attrs.
  rewrite !not_elem_of_cons. repeat split; try done. apply not_elem_of_nil.
Defined.

Lemma before_req_execution_id_witness :
  local_getattr 0 "execution_id" VNone (before_req 0 full_request ∅).1
  = of_lookup (full_request !! "Function-Execution-Id")
  /\ local_getattr 0 "execution_id" VNone
       (before_req 0 {[ "Traceparent" := "abc" ]} execution_id_store).1
     = local_getattr 0 "execution_id" VNone execution_id_store.
Proof.
  split.
  - apply (before_req_execution_id 0 full_request ∅ VNone). vm_compute. reflexivity.
  - apply (before_req_execution_id 0 {[ "Traceparent" := "abc" ]} execution_id_store VNone).
    vm_compute. reflexivity.
Defined.

(** ** The record factory, continued *)

Section RecordFactoryFurther.

Context {Args : Type}.
Variable _old_log_factory : Args -> attrs.

Implicit Types (fctx : attrs) (rctx : thread_local) (tid : thread_id) (args : Args).

(** X6.  A trace id or span id that passes the truthiness test is attached
    to the record under [trace], respectively [span_id], replacing whatever
    the base record had there. *)
Theorem request_context_attached fctx rctx tid args :
  (truthy (local_getattr tid "trace" VNone rctx) = true ->
     _new_log_factory _old_log_factory fctx rctx tid args !! "trace"
     = Some (local_getattr tid "trace" VNone rctx))
  /\ (truthy (local_getattr tid "span_id" VNone rctx) = true ->
        _new_log_factory _old_log_factory fctx rctx tid args !! "span_id"
        = Some (local_getattr tid "span_id" VNone rctx)).
Proof.
  split; intros Htruthy; factory_cases; try congruence; by simplify_map_eq.
Qed.

(** X9.  Hook and factory together: after the hook has run on a request
    with a well-formed trace header and a non-empty execution id, a record
    built on the same thread carries that trace id, that span id and, when
    the static context has no [labels] entry, the labels
    [{execution_id: id}]. *)
Theorem hook_then_factory fctx (obj : thread_local) tid (hs : headers) args v t s f e :
  dash_free v = true ->
  dash_free t = true ->
  dash_free s = true ->
  t <> "" ->
  s <> "" ->
  e <> "" ->
  hs !! "Traceparent" = Some (v +:+ "-" +:+ t +:+ "-" +:+ s +:+ "-" +:+ f) ->
  hs !! "Function-Execution-Id" = Some e ->
  fctx !! "labels" = None ->
  let record :=
    _new_log_factory _old_log_factory fctx (before_req tid hs obj).1 tid args in
  record !! "trace" = Some (VStr t)
  /\ record !! "span_id" = Some (VStr s)
  /\ record !! "labels" = Some (VDict [("execution_id", VStr e)]).
Proof.
  intros Hv Ht Hs Htne Hsne Hene Hh He Hlabels.
  change (v +:+ "-" +:+ t +:+ "-" +:+ s +:+ "-" +:+ f)
    with (v +:+ String "-" (t +:+ String "-" (s +:+ String "-" f))) in Hh.
  assert (Hsplit : split "-" (v +:+ String "-" (t +:+ String "-" (s +:+ String "-" f)))
                   = v :: t :: s :: split "-" f)
    by (by rewrite !split_dash_free_app).
  rewrite (before_req_segments tid hs obj _ t s Hh);
    [|apply append_dash_nonempty|by rewrite Hsplit|by rewrite Hsplit].
  rewrite He. cbn [of_lookup fst].
  set (rctx := (local_setattr tid "execution_id" (VStr e) _).1).
  assert (Htrace : local_getattr tid "trace" VNone rctx = VStr t).
  { subst rctx. rewrite !local_getattr_setattr_name_ne by done.
    apply local_getattr_setattr_eq. }
  assert (Hspan : local_getattr tid "span_id" VNone rctx = VStr s).
  { subst rctx. rewrite local_getattr_setattr_name_ne by done.
    apply local_getattr_setattr_eq. }
  assert (Hexec : local_getattr tid "execution_id" VNone rctx = VStr e).
  { subst rctx. apply local_getattr_setattr_eq. }
  assert (Hnonempty : forall x, x <> "" -> truthy (VStr x) = true).
  { intros x Hx. simpl. apply negb_true_iff. by apply String.eqb_neq. }
  unfold _new_log_factory. cbv zeta.
  rewrite Htrace, Hspan, Hexec, !Hnonempty by done.
  unfold dict_get. rewrite Hlabels. cbn [default from_option].
  by simplify_map_eq.
Qed.

End RecordFactoryFurther.

Lemma request_context_attached_witness :
  _new_log_factory plain_factory ∅ (before_req 0 traced_request ∅).1 0 "hello" !! "trace"
  = Some (local_getattr 0 "trace" VNone (before_req 0 traced_request ∅).1)
  /\ _new_log_factory plain_factory ∅ (before_req 0 traced_request ∅).1 0 "hello"
       !! "span_id"
     = Some (local_getattr 0 "span_id" VNone (before_req 0 traced_request ∅).1).
Proof.
  destruct (request_context_attached plain_factory ∅ (before_req 0 traced_request ∅).1
              0 "hello") as [Ht Hs].
  split.
  - apply Ht. vm_compute. reflexivity.
  - apply Hs. vm_compute. reflexivity.
Defined.

Lemma labels_fallback_witness :
  _new_log_factory plain_factory ∅ execution_id_store 0 "hello" !! "labels"
  = Some (VDict [("execution_id", local_getattr 0 "execution_id" VNone execution_id_store)]).
Proof.
  apply (labels_fallback plain_factory ∅ execution_id_store 0 "hello").
  - reflexivity.
  - vm_compute. reflexivity.
Defined.

Lemma hook_then_factory_witness :
  _new_log_factory plain_factory ∅ (before_req 0 full_request ∅).1 0 "hello" !! "trace"
  = Some (VStr "4bf92f3577b34da6a3ce929d0e0e4736")
  /\ _new_log_factory plain_factory ∅ (before_req 0 full_request ∅).1 0 "hello"
       !! "span_id"
     = Some (VStr "00f067aa0ba902b7")
  /\ _new_log_factory plain_factory ∅ (before_req 0 full_request ∅).1 0 "hello"
       !! "labels"
     = Some (VDict [("execution_id", VStr "abc123")]).
Proof.
  apply (hook_then_factory plain_factory ∅ ∅ 0 full_request "hello"
           "00" "4bf92f3577b34da6a3ce929d0e0e4736" "00f067aa0ba902b7" "01" "abc123");
    try reflexivity; discriminate.
Defined.

(** ** Static context initialisation *)

Section StaticContext.

Implicit Types (env : environ) (fctx : attrs).

Lemma environ_get_falsy env name :
  unset_or_empty env name -> truthy (environ_get env name) = false.
Proof. unfold environ_get. by intros [-> | ->]. Qed.

Lemma environ_get_truthy env name v :
  env !! name = Some v -> v <> "" ->
  environ_get env name = VStr v /\ truthy (environ_get env name) = true.
Proof.
  intros Hv Hne. unfold environ_get. rewrite Hv. split; [done|].
  simpl. apply negb_true_iff. by apply String.eqb_neq.
Qed.

Lemma or_truthy_l x y : truthy x = true -> or_ x y = x.
Proof. intros H. unfold or_. by rewrite H. Qed.

Lemma or_falsy_l x y : truthy x = false -> or_ x y = y.
Proof. intros H. unfold or_. by rewrite H. Qed.

(** X10.  Initialisation always leaves [project_id], [function_region] and
    [function_name] present in the static context, and changes no other
    key; in particular it never sets [labels]. *)
Theorem init_function_context_keys env fctx :
  (forall k, k ∈ ["project_id"; "function_region"; "function_name"] ->
     is_Some (init_function_context env fctx !! k))
  /\ (forall k, k ∉ ["project_id"; "function_region"; "function_name"] ->
        init_function_context env fctx !! k = fctx !! k).
Proof.
  unfold init_function_context; cbv zeta. split; intros k Hk.
  - rewrite !elem_of_cons in Hk.
    destruct Hk as [->|[->|[->|Hk]]]; [| | |by apply elem_of_nil in Hk];
      by simplify_map_eq.
  - rewrite !not_elem_of_cons in Hk. destruct Hk as (? & ? & ? & _).
    by simplify_map_eq.
Qed.

(** X11.  The project id is taken from the first of [GCLOUD_PROJECT],
    [GCP_PROJECT], [X_GOOGLE_GCLOUD_PROJECT], [PROJECT_ID] that is set to a
    non-empty value: a variable that is unset or empty is passed over. *)
Theorem init_project_id_precedence env fctx i name v :
  project_aliases !! i = Some name ->
  env !! name = Some v ->
  v <> "" ->
  (forall j name', j < i -> project_aliases !! j = Some name' ->
     unset_or_empty env name') ->
  init_function_context env fctx !! "project_id" = Some (VStr v).
Proof.
  intros Hi Hv Hne Hearlier.
  destruct (environ_get_truthy env name v Hv Hne) as [Hget Htruthy].
  assert (Hskip : forall j name', j < i -> project_aliases !! j = Some name' ->
            truthy (environ_get env name') = false).
  { intros j name' Hj Hname'. apply environ_get_falsy. by apply (Hearlier j). }
  unfold init_function_context; cbv zeta.
  rewrite lookup_insert_ne, lookup_insert_ne, lookup_insert_eq by done.
  f_equal.
  destruct i as [|[|[|[|i]]]]; simpl in Hi; [| | | |discriminate];
    injection Hi as <-.
  - by rewrite !(or_truthy_l (environ_get _ _)) by done.
  - rewrite (or_falsy_l (environ_get env "GCLOUD_PROJECT"))
      by (apply (Hskip 0); [lia|done]).
    by rewrite !(or_truthy_l (environ_get _ _)) by done.
  - rewrite (or_falsy_l (environ_get env "GCLOUD_PROJECT"))
      by (apply (Hskip 0); [lia|done]).
    rewrite (or_falsy_l (environ_get env "GCP_PROJECT"))
      by (apply (Hskip 1); [lia|done]).
    by rewrite !(or_truthy_l (environ_get _ _)) by done.
  - rewrite (or_falsy_l (environ_get env "GCLOUD_PROJECT"))
      by (apply (Hskip 0); [lia|done]).
    rewrite (or_falsy_l (environ_get env "GCP_PROJECT"))
      by (apply (Hskip 1); [lia|done]).
    rewrite (or_falsy_l (environ_get env "X_GOOGLE_GCLOUD_PROJECT"))
      by (apply (Hskip 2); [lia|done]).
    done.
Qed.

(** X12.  When none of the first three aliases is set to a non-empty value
    the project id is whatever the lookup of [PROJECT_ID] gives: [None]
    when it is unset, and the empty string when it is set and empty. *)
Theorem init_project_id_fallthrough env fctx :
  unset_or_empty env "GCLOUD_PROJECT" ->
  unset_or_empty env "GCP_PROJECT" ->
  unset_or_empty env "X_GOOGLE_GCLOUD_PROJECT" ->
  init_function_context env fctx !! "project_id"
  = Some (of_lookup (env !! "PROJECT_ID")).
Proof.
  intros H1 H2 H3. unfold init_function_context; cbv zeta.
  rewrite lookup_insert_ne, lookup_insert_ne, lookup_insert_eq by done.
  by rewrite !(or_falsy_l (environ_get _ _)) by (by apply environ_get_falsy).
Qed.

End StaticContext.

Lemma init_function_context_keys_witness :
  is_Some (init_function_context ∅ labelled_context !! "function_region")
  /\ init_function_context ∅ labelled_context !! "labels" = labelled_context !! "labels".
Proof.
  destruct (init_function_context_keys ∅ labelled_context) as [Hpresent Hframe].
  split.
  - apply Hpresent. rewrite !elem_of_cons. auto.
  - apply Hframe. rewrite !not_elem_of_cons. repeat split; try done.
    apply not_elem_of_nil.
Defined.

Lemma init_project_id_precedence_witness :
  init_function_context aliased_environ ∅ !! "project_id" = Some (VStr "proj-2").
Proof.
  apply (init_project_id_precedence aliased_environ ∅ 2 "X_GOOGLE_GCLOUD_PROJECT" "proj-2").
  - reflexivity.
  - reflexivity.
  - discriminate.
  - intros j name' Hj Hname'. destruct j as [|[|j]]; [| |lia];
      simpl in Hname'; injection Hname' as <-.
    + right. reflexivity.
    + left. reflexivity.
Defined.

Lemma init_project_id_fallthrough_witness :
  init_function_context {[ "GCLOUD_PROJECT" := ""; "PROJECT_ID" := "" ]} ∅ !! "project_id"
  = Some (of_lookup (({[ "GCLOUD_PROJECT" := ""; "PROJECT_ID" := "" ]} : environ)
                       !! "PROJECT_ID")).
Proof.
  apply (init_project_id_fallthrough {[ "GCLOUD_PROJECT" := ""; "PROJECT_ID" := "" ]} ∅).
  - right. reflexivity.
  - left. reflexivity.
  - left. reflexivity.
Defined.

(** ** Logger levels *)

Section Levels.

Implicit Types (loggers : logger_dict) (names : list string).

Lemma logger_key_nonempty name : name <> "" -> logger_key name = name.
Proof.
  intros Hne. unfold logger_key.
  destruct (String.eqb_spec name ""); [done|reflexivity].
Qed.

Lemma getLogger_other name loggers n :
  n <> logger_key name -> (getLogger name loggers).1 !! n = loggers !! n.
Proof.
  intros Hn. unfold getLogger. destruct (loggers !! logger_key name); simpl; [done|].
  by rewrite lookup_insert_ne.
Qed.

Lemma pin_excluded_spec names loggers :
  (pin_excluded names loggers).2 = Returned tt
  /\ (forall n, n ∈ names ->
        level <$> (pin_excluded names loggers).1 !! logger_key n = Some WARNING)
  /\ (forall k, (forall n, n ∈ names -> logger_key n <> k) ->
        (pin_excluded names loggers).1 !! k = loggers !! k).
Proof.
  revert loggers. induction names as [|name names IH]; intros loggers.
  - split; [done|]. split; [|done]. intros n Hn. by apply elem_of_nil in Hn.
  - set (loggers' := <[logger_key name := {| level := WARNING |}]>
                       (getLogger name loggers).1).
    assert (Hstep : pin_excluded (name :: names) loggers = pin_excluded names loggers').
    { subst loggers'. cbn [pin_excluded].
      unfold mbind, M_bind, bind, getLogger, setLevel.
      by destruct (loggers !! logger_key name). }
    assert (Hown : loggers' !! logger_key name = Some {| level := WARNING |})
      by (subst loggers'; apply lookup_insert_eq).
    assert (Hother : forall k, k <> logger_key name -> loggers' !! k = loggers !! k).
    { intros k Hk. subst loggers'. rewrite lookup_insert_ne by done.
      by apply getLogger_other. }
    rewrite Hstep. destruct (IH loggers') as (Hret & Hin & Hout).
    split; [done|]. split.
    + intros n Hn.
      destruct (decide (logger_key n ∈ logger_key <$> names)) as [Hkey|Hnone].
      * apply list_elem_of_fmap in Hkey as (m & -> & Hm). by apply Hin.
      * apply elem_of_cons in Hn as [->|Hn];
          [|exfalso; apply Hnone; by apply list_elem_of_fmap_2].
        rewrite Hout; [by rewrite Hown|].
        intros m Hm Hkey. apply Hnone. rewrite <- Hkey.
        by apply list_elem_of_fmap_2.
    + intros k Hk. rewrite Hout.
      * apply Hother. intros ->. apply (Hk name); [|done].
        apply elem_of_cons. by left.
      * intros n Hn. apply Hk. apply elem_of_cons. by right.
Qed.

Lemma pin_levels_step names loggers :
  pin_levels names loggers
  = pin_excluded names (<["root" := {| level := INFO |}]> (getLogger "root" loggers).1).
Proof.
  unfold pin_levels, mbind, M_bind, bind, getLogger, setLevel.
  change (logger_key "root") with "root".
  by destruct (loggers !! "root").
Qed.

Lemma LogFactory_other name log_level debug loggers n :
  n <> __name__ ->
  (LogFactory name log_level debug loggers).1 !! n = loggers !! n.
Proof.
  intros Hn. unfold LogFactory, mbind, M_bind, bind, getLogger, setLevel.
  change (logger_key __name__) with __name__.
  destruct (loggers !! __name__), debug; simpl;
    by rewrite !lookup_insert_ne.
Qed.

(** The key of a name from a list that holds neither "root" nor the empty
    name is not "root". *)
Lemma logger_key_not_root names n :
  "root" ∉ names -> "" ∉ names -> n ∈ names -> logger_key n <> "root".
Proof.
  intros Hroot Hempty Hn. rewrite logger_key_nonempty.
  - intros ->. by apply Hroot.
  - intros ->. by apply Hempty.
Qed.

(** X13.  Level pinning never raises.  Afterwards every logger named in the
    excluded list is at WARNING (the empty name naming the root logger), the
    root logger is at INFO unless the list names it, as "root" or as the
    empty name, and every other logger is as it was. *)
Theorem pin_levels_spec names loggers :
  (pin_levels names loggers).2 = Returned tt
  /\ (forall n, n ∈ names ->
        level <$> (pin_levels names loggers).1 !! logger_key n = Some WARNING)
  /\ ("root" ∉ names -> "" ∉ names ->
      level <$> (pin_levels names loggers).1 !! "root" = Some INFO)
  /\ (forall n, n <> "root" -> n ∉ names ->
        (pin_levels names loggers).1 !! n = loggers !! n).
Proof.
  rewrite pin_levels_step.
  destruct (pin_excluded_spec names
              (<["root" := {| level := INFO |}]> (getLogger "root" loggers).1))
    as (Hret & Hin & Hout).
  split; [done|]. split; [done|]. split.
  - intros Hroot Hempty. rewrite Hout; [by rewrite lookup_insert_eq|].
    intros n Hn. by apply (logger_key_not_root names).
  - intros n Hn Hmem. rewrite Hout.
    + rewrite lookup_insert_ne by done. by apply getLogger_other.
    + intros m Hm Hkey. unfold logger_key in Hkey.
      destruct (String.eqb m ""); [by apply Hn|]. subst m. by apply Hmem.
Qed.

(** X14.  For an integer level, [LogFactory] touches one logger only: every
    logger other than the module's own is as it was before the call, and
    the table afterwards holds the loggers it held before plus the module's
    own. *)
Theorem LogFactory_frame name log_level debug loggers :
  (forall n, n <> __name__ ->
     (LogFactory name log_level debug loggers).1 !! n = loggers !! n)
  /\ dom (LogFactory name log_level debug loggers).1 = {[ __name__ ]} ∪ dom loggers.
Proof.
  unfold LogFactory, mbind, M_bind, bind, getLogger, setLevel.
  change (logger_key __name__) with __name__.
  destruct (loggers !! __name__) as [l|] eqn:Hown, debug; simpl;
    (split; [intros n Hn; by rewrite !lookup_insert_ne|]);
    rewrite !dom_insert_L, ?(assoc_L (∪)), ?(idemp_L (∪)); reflexivity.
Qed.


(** X16.  [LogFactory] does not undo the level pinning: when the excluded
    list names neither the module's own logger nor the root logger (as
    "root" or as the empty name), after pinning and any call of
    [LogFactory] with an integer level the root logger is still at INFO and
    the excluded loggers are still at WARNING, also for [debug = True]. *)
Theorem LogFactory_keeps_pinned_levels names loggers name log_level debug :
  __name__ ∉ names ->
  "root" ∉ names ->
  "" ∉ names ->
  let loggers' := (LogFactory name log_level debug (pin_levels names loggers).1).1 in
  level <$> loggers' !! "root" = Some INFO
  /\ forall n, n ∈ names -> level <$> loggers' !! n = Some WARNING.
Proof.
  intros Hown Hroot Hempty loggers'. subst loggers'. rewrite pin_levels_step.
  destruct (pin_excluded_spec names
              (<["root" := {| level := INFO |}]> (getLogger "root" loggers).1))
    as (_ & Hin & Hout).
  split.
  - rewrite LogFactory_other by done. rewrite Hout; [by rewrite lookup_insert_eq|].
    intros n Hn. by apply (logger_key_not_root names).
  - intros n Hn. rewrite LogFactory_other by (intros ->; by apply Hown).
    rewrite <- (logger_key_nonempty n) at 1 by (intros ->; by apply Hempty).
    by apply Hin.
Qed.

End Levels.

Lemma pin_levels_spec_witness :
  level <$> (pin_levels sample_excluded sample_loggers).1 !! logger_key "urllib3"
  = Some WARNING
  /\ level <$> (pin_levels sample_excluded sample_loggers).1 !! "root" = Some INFO
  /\ (pin_levels sample_excluded sample_loggers).1 !! "app" = sample_loggers !! "app".
Proof.
  destruct (pin_levels_spec sample_excluded sample_loggers) as (_ & Hin & Hroot & Hother).
  unfold sample_excluded in *. split; [|split].
  - apply Hin. rewrite !elem_of_cons. auto.
  - apply Hroot; rewrite !not_elem_of_cons; repeat split; try done;
      apply not_elem_of_nil.
  - apply Hother; [done|]. rewrite !not_elem_of_cons. repeat split; try done.
    apply not_elem_of_nil.
Defined.

Lemma LogFactory_frame_witness :
  (LogFactory "service" INFO true sample_loggers).1 !! "app" = sample_loggers !! "app".
Proof.
  destruct (LogFactory_frame "service" INFO true sample_loggers) as (Hother & _).
  apply Hother. done.
Defined.

Lemma LogFactory_keeps_pinned_levels_witness :
  level <$> (LogFactory "service" INFO true
               (pin_levels sample_excluded sample_loggers).1).1 !! "root"
  = Some INFO
  /\ forall n, n ∈ sample_excluded ->
       level <$> (LogFactory "service" INFO true
                    (pin_levels sample_excluded sample_loggers).1).1 !! n
       = Some WARNING.
Proof.
  apply (LogFactory_keeps_pinned_levels sample_excluded sample_loggers "service" INFO true);
    unfold sample_excluded; rewrite !not_elem_of_cons; repeat split; try done;
    apply not_elem_of_nil.
Defined.

(** The empty name in the excluded list pins the root logger to WARNING. *)
Example pin_levels_empty_name :
  level <$> (pin_levels [""] ∅).1 !! "root" = Some WARNING.
Proof. vm_compute. reflexivity. Qed.

(** ** Running the handler removal again *)

Section HandlersAgain.

Implicit Types (hs : list handler) (h : handler).

(** X18.  The removal is not idempotent on longer lists: when the first
    four of five or more handlers are stream handlers, a second run deletes
    the third and fourth handler as well. *)
Theorem remove_duplicate_handlers_second_run_deletes h0 h1 h2 h3 h4 rest :
  isinstance_StreamHandler h0 = true ->
  isinstance_StreamHandler h1 = true ->
  isinstance_StreamHandler h2 = true ->
  isinstance_StreamHandler h3 = true ->
  remove_duplicate_handlers
    (remove_duplicate_handlers (h0 :: h1 :: h2 :: h3 :: h4 :: rest)).1
  = (h4 :: rest, Returned tt).
Proof.
  intros H0 H1 H2 H3.
  rewrite (remove_duplicate_handlers_removes h0 h1 h2 (h3 :: h4 :: rest) H0 H1).
  cbn [fst]. by apply remove_duplicate_handlers_removes.
Qed.

End HandlersAgain.

Lemma remove_duplicate_handlers_second_run_deletes_witness :
  remove_duplicate_handlers (remove_duplicate_handlers five_handlers).1
  = ([backend "audit"], Returned tt).
Proof.
  apply (remove_duplicate_handlers_second_run_deletes
           (console "stderr") (console "stdout") (backend "cloud")
           (backend "structured") (backend "audit") []); reflexivity.
Defined.
